(** * german_tts: the speak-request lifecycle of [german_tts.py]

    A shallow embedding of the three classes of [german_tts.py]
    ([EnterKeyTextEdit], [AnimatedButton], [TextToSpeechApp]) as functions of
    an explicit world state, with the collaborators the program calls
    (gTTS, tempfile, pygame.mixer, os) given by an environment that decides,
    call by call, whether they return or raise. *)

From Stdlib Require Import ZArith NArith List Sorted Bool Lia String.
From Stdlib Require Import Floats.SpecFloat.
Import ListNotations.
Local Open Scope Z_scope.

(** ** Python values *)

Module Py.

(** A Python [str] is a sequence of Unicode code points. *)
Definition char := N.
Definition str := list char.

(** The code points [str.strip()] removes when called without argument
    (CPython's [Py_UNICODE_ISSPACE]). *)
Definition isspace (c : char) : bool :=
  (((9 <=? c) && (c <=? 13)) || ((28 <=? c) && (c <=? 32))
   || (c =? 133) || (c =? 160) || (c =? 5760)
   || ((8192 <=? c) && (c <=? 8202))
   || (c =? 8232) || (c =? 8233) || (c =? 8239) || (c =? 8287)
   || (c =? 12288))%N.

Fixpoint lstrip (s : str) : str :=
  match s with
  | [] => []
  | c :: s' => if isspace c then lstrip s' else s
  end.

Definition rstrip (s : str) : str := rev (lstrip (rev s)).

(** [s.strip()]: leading whitespace goes first, then trailing. *)
Definition strip (s : str) : str := rstrip (lstrip s).

(** Truth value of a [str]: [not text] holds of the empty string only. *)
Definition truthy (s : str) : bool :=
  match s with [] => false | _ :: _ => true end.

(** The exceptions that can travel through the program. *)
Inductive Exn : Type :=
| AssertionError | ValueError | OverflowError | RuntimeError
| OSError            (* tempfile, file writes, os.remove *)
| gTTSError          (* the synthesis service *)
| pygame_error       (* the mixer *)
| OtherError (name : string).

Inductive Result (A : Type) : Type :=
| Ok (a : A)
| Raise (e : Exn).
Arguments Ok {A} a.
Arguments Raise {A} e.

(** A Python [float] is an IEEE 754 binary64. *)
Definition float := spec_float.
Definition prec : Z := 53.
Definition emax : Z := 1024.

Definition float_mul : float -> float -> float := SFmul prec emax.
Definition float_add : float -> float -> float := SFadd prec emax.

(** [float(n)] for the integer literals of the program (all below 2^53,
    hence exact). *)
Definition float_of_int (n : Z) : float := binary_normalize prec emax n 0 false.

(** [int(x)]: truncation toward zero; NaN and the infinities raise. *)
Definition int (x : float) : Result Z :=
  match x with
  | S754_zero _ => Ok 0
  | S754_infinity _ => Raise OverflowError
  | S754_nan => Raise ValueError
  | S754_finite s m e => Ok (cond_Zopp s (Z.shiftl (Zpos m) e))
  end.

End Py.
Import Py.

(** ** Qt values *)

Module Qt.

(** [Qt.Key_Return], [Qt.Key_Enter] and [Qt.ShiftModifier]. *)
Definition Key_Return : Z := 0x01000004.
Definition Key_Enter : Z := 0x01000005.
Definition ShiftModifier : Z := 0x02000000.

Record QKeyEvent : Type := mkKeyEvent {
  key : Z;
  modifiers : Z
}.

(** The contents of a [QTextEdit] around its cursor: the text before the
    selection, the selected text (empty when there is none) and the text
    after it. *)
Record QTextEdit : Type := mkTextEdit {
  before_cursor : str;
  selected : str;
  after_cursor : str
}.

Definition toPlainText (t : QTextEdit) : str :=
  before_cursor t ++ selected t ++ after_cursor t.

(** [insertPlainText(s)]: the selection, if any, is replaced; the cursor
    ends behind the inserted text. *)
Definition insertPlainText (s : str) (t : QTextEdit) : QTextEdit :=
  {| before_cursor := before_cursor t ++ s;
     selected := [];
     after_cursor := after_cursor t |}.

End Qt.
Import Qt.

(** ** The world the program runs in *)

Definition Path := string.

(** What [gTTS(text=..., lang=..., slow=...)] returns: the request it was
    built from. *)
Record gTTS : Type := mkgTTS {
  tts_text : str;
  tts_lang : str;
  tts_slow : bool
}.

(** [Sound.get_length()] is a number of samples over a sampling frequency: a
    finite double that is never negative, here mantissa * 2^exponent. *)
Record SoundLength : Type := mkLength {
  mantissa : N;
  exponent : Z
}.

Definition float_of_length (l : SoundLength) : float :=
  match mantissa l with
  | N0 => S754_zero false
  | Npos m => S754_finite false m (exponent l)
  end.

(** The two closures the program hands to [QTimer.singleShot]. *)
Inductive Callback : Type :=
| CbDoneSpeaking                    (* the local function [done_speaking] *)
| CbRemove (temp_path : Path).      (* [lambda: os.remove(temp_path)] *)

(** The button's style sheet is either the text of [default_style()] or the
    one [set_opacity] formats from an opacity value. *)
Inductive StyleSheet : Type :=
| DefaultStyle
| OpacityStyle (value : float).

Record AnimatedButton : Type := mkButton {
  disabled : bool;
  animation_running : bool;
  styleSheet : StyleSheet;
  _opacity : float
}.

(** Every call the program makes on a widget, a timer or a collaborator, in
    the order it makes them; collaborator calls carry their outcome. *)
Inductive Event : Type :=
| EvSetDisabled (b : bool)
| EvAnimationStart
| EvAnimationStop
| EvSetStyleSheet (s : StyleSheet)
| EvSetText (s : str)
| EvInsertPlainText (s : str)
| EvgTTS (text lang : str) (slow : bool) (r : Result unit)
| EvNamedTemporaryFile (suffix : string) (r : Result Path)
| EvSave (tts : gTTS) (path : Path) (r : Result unit)
| EvMusicLoad (path : Path) (r : Result unit)
| EvMusicPlay (r : Result unit)
| EvGetLength (path : Path) (r : Result SoundLength)
| EvSingleShot (msec : Z) (cb : Callback)
| EvRemove (path : Path) (r : Result unit).

Record World : Type := mkWorld {
  text_edit : QTextEdit;
  slow_checkbox : bool;
  button : AnimatedButton;
  status_label : str;
  now : Z;                          (* the clock, in milliseconds *)
  timers : list (Z * Callback);     (* pending single-shot timers, with due time *)
  calls : nat;                      (* collaborator calls made so far *)
  log : list (Z * Event)            (* time-stamped trace, oldest first *)
}.

(** The collaborators. Each answer may depend on the arguments and on how
    many collaborator calls came before; [elapsed] is the time, in
    milliseconds, a call blocks the (single) thread. *)
Record Env : Type := mkEnv {
  env_gTTS : nat -> str -> str -> bool -> Result unit;
  env_NamedTemporaryFile : nat -> string -> Result Path;
  env_save : nat -> gTTS -> Path -> Result unit;
  env_music_load : nat -> Path -> Result unit;
  env_music_play : nat -> Result unit;
  env_get_length : nat -> Path -> Result SoundLength;
  env_remove : nat -> Path -> Result unit;
  elapsed : nat -> N
}.

(** ** State and exceptions *)

Definition M (A : Type) : Type := World -> World * Result A.

Definition ret {A} (a : A) : M A := fun w => (w, Ok a).

Definition bind {A B} (c : M A) (k : A -> M B) : M B :=
  fun w => match c w with
           | (w', Ok a) => k a w'
           | (w', Raise e) => (w', Raise e)
           end.

Declare Scope m_scope.
Delimit Scope m_scope with m.
Notation "x <- c ;; k" := (bind c (fun x => k))
  (at level 61, c at next level, right associativity) : m_scope.
Notation "c ;; k" := (bind c (fun _ => k))
  (at level 61, right associativity) : m_scope.

Definition lift {A} (r : Result A) : M A := fun w => (w, r).

(** [try: body finally: handler]: the handler runs however the body ends;
    the body's exception, if any, is raised again after it unless the handler
    raises itself. *)
Definition try_finally {A} (body : M A) (handler : M unit) : M A :=
  fun w => match body w with
           | (w1, r) =>
               match handler w1 with
               | (w2, Ok _) => (w2, r)
               | (w2, Raise e) => (w2, Raise e)
               end
           end.

Definition set_text_edit (t : QTextEdit) (w : World) : World :=
  mkWorld t (slow_checkbox w) (button w) (status_label w)
          (now w) (timers w) (calls w) (log w).
Definition set_button (b : AnimatedButton) (w : World) : World :=
  mkWorld (text_edit w) (slow_checkbox w) b (status_label w)
          (now w) (timers w) (calls w) (log w).
Definition set_status_label (s : str) (w : World) : World :=
  mkWorld (text_edit w) (slow_checkbox w) (button w) s
          (now w) (timers w) (calls w) (log w).
Definition set_timers (l : list (Z * Callback)) (w : World) : World :=
  mkWorld (text_edit w) (slow_checkbox w) (button w) (status_label w)
          (now w) l (calls w) (log w).
Definition set_log (l : list (Z * Event)) (w : World) : World :=
  mkWorld (text_edit w) (slow_checkbox w) (button w) (status_label w)
          (now w) (timers w) (calls w) l.

(** Appends an event to the trace, stamped with the current time. *)
Definition record (ev : Event) (w : World) : World :=
  set_log (log w ++ [(now w, ev)]) w.

(** A collaborator call: it takes [elapsed] milliseconds, is counted, and
    is recorded with its outcome at the time it returns. *)
Definition after_call (E : Env) (w : World) : World :=
  mkWorld (text_edit w) (slow_checkbox w) (button w) (status_label w)
          (now w + Z.of_N (elapsed E (calls w))) (timers w)
          (S (calls w)) (log w).

Definition call {A} (E : Env) (answer : nat -> Result A)
    (ev : Result A -> Event) : M A :=
  fun w => let r := answer (calls w) in (record (ev r) (after_call E w), r).

Local Open Scope m_scope.

(** ** class EnterKeyTextEdit *)

Section EnterKeyTextEdit.

(** [QTextEdit.keyPressEvent], the handler of the base class. *)
Variable super_keyPressEvent : QKeyEvent -> M unit.

(** The [on_enter_pressed] attribute: [None] or a callable. *)
Variable on_enter_pressed : option (M unit).

Definition insert_newline : M unit :=
  fun w => (record (EvInsertPlainText [10%N])
              (set_text_edit (insertPlainText [10%N] (text_edit w)) w), Ok tt).

Definition keyPressEvent (event : QKeyEvent) : M unit :=
  if (key event =? Key_Return) || (key event =? Key_Enter) then
    if negb (Z.land (modifiers event) ShiftModifier =? 0) then
      insert_newline
    else
      match on_enter_pressed with
      | Some callback => callback
      | None => ret tt
      end
  else super_keyPressEvent event.

End EnterKeyTextEdit.

(** ** class AnimatedButton *)

Definition setDisabled (b : bool) : M unit :=
  fun w => (record (EvSetDisabled b)
              (set_button (mkButton b (animation_running (button w))
                             (styleSheet (button w)) (_opacity (button w))) w),
            Ok tt).

Definition setStyleSheet (s : StyleSheet) : M unit :=
  fun w => (record (EvSetStyleSheet s)
              (set_button (mkButton (disabled (button w))
                             (animation_running (button w)) s
                             (_opacity (button w))) w),
            Ok tt).

Definition set_animation_running (b : bool) (w : World) : World :=
  set_button (mkButton (disabled (button w)) b (styleSheet (button w))
                (_opacity (button w))) w.

Definition start_animation : M unit :=
  fun w => (record EvAnimationStart (set_animation_running true w), Ok tt).

Definition default_style : StyleSheet := DefaultStyle.

Definition stop_animation : M unit :=
  (fun w => (record EvAnimationStop (set_animation_running false w), Ok tt)) ;;
  setStyleSheet default_style.

Definition get_opacity (w : World) : float := _opacity (button w).

Definition set_opacity (value : float) : M unit :=
  (fun w => (set_button (mkButton (disabled (button w))
                           (animation_running (button w))
                           (styleSheet (button w)) value) w, Ok tt)) ;;
  _bg_opacity <- lift (int (float_add (float_of_int 85)
                              (float_mul value (float_of_int 100)))) ;;
  setStyleSheet (OpacityStyle value).

(** ** class TextToSpeechApp *)

Definition setText (s : str) : M unit :=
  fun w => (record (EvSetText s) (set_status_label s w), Ok tt).

(** [QTimer.singleShot(msec, cb)]: [cb] becomes due [msec] milliseconds from
    now. *)
Definition singleShot (msec : Z) (cb : Callback) : M unit :=
  fun w => (record (EvSingleShot msec cb)
              (set_timers (timers w ++ [(now w + msec, cb)]) w), Ok tt).

(** The status text while speaking: a loudspeaker sign, then " Speaking...". *)
Definition speaking_text : str :=
  [128266; 32; 83; 112; 101; 97; 107; 105; 110; 103; 46; 46; 46]%N.

(** The language code ['de']. *)
Definition lang_de : str := [100; 101]%N.

Definition done_speaking : M unit :=
  setDisabled false ;;
  stop_animation ;;
  setText [].

Section TextToSpeechApp.

Variable E : Env.

Definition new_gTTS (text lang : str) (slow : bool) : M gTTS :=
  call E (fun n => env_gTTS E n text lang slow) (EvgTTS text lang slow) ;;
  ret (mkgTTS text lang slow).

Definition NamedTemporaryFile (suffix : string) : M Path :=
  call E (fun n => env_NamedTemporaryFile E n suffix)
       (EvNamedTemporaryFile suffix).

Definition save (tts : gTTS) (path : Path) : M unit :=
  call E (fun n => env_save E n tts path) (EvSave tts path).

Definition music_load (path : Path) : M unit :=
  call E (fun n => env_music_load E n path) (EvMusicLoad path).

Definition music_play : M unit :=
  call E (env_music_play E) EvMusicPlay.

Definition Sound_get_length (path : Path) : M SoundLength :=
  call E (fun n => env_get_length E n path) (EvGetLength path).

Definition os_remove (path : Path) : M unit :=
  call E (fun n => env_remove E n path) (EvRemove path).

(** [int(pygame.mixer.Sound(temp_path).get_length() * 1000)] *)
Definition duration_ms_of (l : SoundLength) : Result Z :=
  int (float_mul (float_of_length l) (float_of_int 1000)).

(** The body of the [try] block. *)
Definition speak (tts : gTTS) (temp_path : Path) : M unit :=
  save tts temp_path ;;
  music_load temp_path ;;
  music_play ;;
  l <- Sound_get_length temp_path ;;
  duration_ms <- lift (duration_ms_of l) ;;
  singleShot duration_ms CbDoneSpeaking.

Definition text_to_speech : M unit :=
  fun w =>
    let text := strip (toPlainText (text_edit w)) in
    let slow_checked := slow_checkbox w in
    if negb (truthy text) then (w, Ok tt)
    else
      (setDisabled true ;;
       start_animation ;;
       setText speaking_text ;;
       tts <- new_gTTS text lang_de slow_checked ;;
       temp_path <- NamedTemporaryFile ".mp3" ;;
       try_finally (speak tts temp_path)
                   (singleShot 1500 (CbRemove temp_path))) w.

(** What a pending timer runs when it fires. *)
Definition run_callback (cb : Callback) : M unit :=
  match cb with
  | CbDoneSpeaking => done_speaking
  | CbRemove temp_path => os_remove temp_path
  end.

End TextToSpeechApp.

(** ** The event loop

    Qt delivers one event at a time on the single thread: time passes, a
    timer that is due fires, the button is clicked, a key is pressed in the
    text field. *)

Inductive Input : Type :=
| Tick (dt : N)
| Timeout (i : nat)            (* the i-th pending timer is looked at *)
| Click                        (* a mouse click on the button *)
| KeyPress (event : QKeyEvent)
| Frame (value : float).       (* the running animation writes [opacity] *)

Fixpoint remove_nth {A} (i : nat) (l : list A) : list A :=
  match l, i with
  | [], _ => []
  | _ :: l', O => l'
  | a :: l', S i' => a :: remove_nth i' l'
  end.

Section EventLoop.

Variable E : Env.
Variable super_keyPressEvent : QKeyEvent -> M unit.

Definition advance (dt : N) (w : World) : World :=
  mkWorld (text_edit w) (slow_checkbox w) (button w) (status_label w)
          (now w + Z.of_N dt) (timers w) (calls w) (log w).

(** A single-shot timer fires once, and not before it is due. *)
Definition fire (i : nat) : M unit :=
  fun w => match nth_error (timers w) i with
           | Some (due, cb) =>
               if due <=? now w
               then run_callback E cb (set_timers (remove_nth i (timers w)) w)
               else (w, Ok tt)
           | None => (w, Ok tt)
           end.

(** [button.clicked.connect(self.text_to_speech)]: a disabled button
    emits no [clicked]. *)
Definition click : M unit :=
  fun w => if disabled (button w) then (w, Ok tt) else text_to_speech E w.

(** [EnterKeyTextEdit(on_enter_pressed=self.text_to_speech)] *)
Definition key_press (event : QKeyEvent) : M unit :=
  keyPressEvent super_keyPressEvent (Some (text_to_speech E)) event.

(** [QPropertyAnimation(self, b"opacity")]: while it runs, the animation
    writes the property through [set_opacity]. *)
Definition animate (value : float) : M unit :=
  fun w => if animation_running (button w) then set_opacity value w
           else (w, Ok tt).

Definition dispatch (i : Input) : M unit :=
  match i with
  | Tick dt => fun w => (advance dt w, Ok tt)
  | Timeout i => fire i
  | Click => click
  | KeyPress event => key_press event
  | Frame value => animate value
  end.

(** Events are handled in order; an exception that leaves a handler ends
    the run. *)
Fixpoint exec (l : list Input) : M unit :=
  match l with
  | [] => ret tt
  | i :: l' => dispatch i ;; exec l'
  end.

End EventLoop.

(** ** UIState and requests in flight *)

Inductive UIState : Type := Idle | Speaking.

(** The submit control is disabled exactly while the UI is Speaking. *)
Definition ui_state (w : World) : UIState :=
  if disabled (button w) then Speaking else Idle.

Definition is_done (t : Z * Callback) : bool :=
  match snd t with CbDoneSpeaking => true | CbRemove _ => false end.

Definition is_click_or_tick (i : Input) : bool :=
  match i with Click | Tick _ => true | _ => false end.

(** A request is in flight from its submit until its completion callback
    has run: as many requests are in flight as completion callbacks are
    pending. *)
Definition in_flight (w : World) : nat :=
  List.length (filter is_done (timers w)).

(** The events of [w'] that [w] does not have yet. *)
Definition events_since (w w' : World) : list Event :=
  map snd (skipn (List.length (log w)) (log w')).

(** ** Reading the trace *)

(** The step of the submit sequence an event belongs to: 1 the widget
    updates (button disabled, animation started, status set), 2 the synthesis
    request, 3 the scratch file and the save into it, 4 loading and starting
    playback, 5 measuring the clip and scheduling the completion callback,
    6 scheduling the deletion of the scratch file. *)
Definition step_of (ev : Event) : nat :=
  match ev with
  | EvSetDisabled _ | EvAnimationStart | EvSetText _ => 1
  | EvgTTS _ _ _ _ => 2
  | EvNamedTemporaryFile _ _ | EvSave _ _ _ => 3
  | EvMusicLoad _ _ | EvMusicPlay _ => 4
  | EvGetLength _ _ | EvSingleShot _ CbDoneSpeaking => 5
  | EvSingleShot _ (CbRemove _) => 6
  | EvAnimationStop | EvSetStyleSheet _ | EvInsertPlainText _
  | EvRemove _ _ => 0
  end%nat.

Definition is_synthesis_request (ev : Event) : bool :=
  match ev with EvgTTS _ _ _ _ => true | _ => false end.

Definition is_save (ev : Event) : bool :=
  match ev with EvSave _ _ _ => true | _ => false end.

Definition schedules_completion (ev : Event) : bool :=
  match ev with EvSingleShot _ CbDoneSpeaking => true | _ => false end.

Definition schedules_deletion (ev : Event) : bool :=
  match ev with EvSingleShot _ (CbRemove _) => true | _ => false end.

(** ** Concrete worlds and collaborators, for the examples *)

Module Fixture.

Definition hallo : str := [72; 97; 108; 108; 111]%N.

Definition field (s : str) : QTextEdit := mkTextEdit s [] [].

Definition one : float := S754_finite false 4503599627370496 (-52).

(** The window as [__init__] leaves it, with [s] typed into the field. *)
Definition idle (s : str) : World :=
  mkWorld (field s) true (mkButton false false DefaultStyle one) []
          0 [] 0 [].

Definition outcome (fails : nat -> option Exn) (n : nat) : Result unit :=
  match fails n with Some e => Raise e | None => Ok tt end.

Definition tmp_name (n : nat) : Path :=
  if Nat.ltb n 6 then "/tmp/tmpq3x1.mp3"%string else "/tmp/tmpz8k2.mp3"%string.

(** Collaborators that raise at the calls [fails] names and otherwise
    return; every clip is 2.5 seconds long, every call takes 40 ms. *)
Definition scripted (fails : nat -> option Exn) : Env :=
  mkEnv (fun n _ _ _ => outcome fails n)
        (fun n _ => match fails n with
                    | Some e => Raise e
                    | None => Ok (tmp_name n)
                    end)
        (fun n _ _ => outcome fails n)
        (fun n _ => outcome fails n)
        (fun n => outcome fails n)
        (fun n _ => match fails n with
                    | Some e => Raise e
                    | None => Ok (mkLength 5 (-1))
                    end)
        (fun n _ => outcome fails n)
        (fun _ => 40%N).

Definition healthy : Env := scripted (fun _ => None).

Definition failing_at (k : nat) (e : Exn) : Env :=
  scripted (fun n => if Nat.eqb n k then Some e else None).

(** A stand-in for the base class handler: the key's character is typed. *)
Definition base_keyPressEvent (event : QKeyEvent) : M unit :=
  fun w => (set_text_edit
              (insertPlainText [Z.to_N (key event)] (text_edit w)) w, Ok tt).

Definition plain_enter : QKeyEvent := mkKeyEvent Key_Return 0.
Definition shift_enter : QKeyEvent := mkKeyEvent Key_Enter 0x22000000.
Definition letter_a : QKeyEvent := mkKeyEvent 0x41 0.

End Fixture.

(** ** Start-up and what runs preserve *)

(** The window as [TextToSpeechApp.__init__] leaves it: an empty text
    field, the slow checkbox checked, the button enabled with its opacity
    attribute at 1.0 and the default style sheet, an empty status label, and
    no timer. *)
Definition TextToSpeechApp_init : World :=
  mkWorld (mkTextEdit [] [] []) true
          (mkButton false false default_style
                    (S754_finite false 4503599627370496 (-52)))
          [] 0 [] 0 [].

(** What is assumed of [QTextEdit.keyPressEvent]: it edits the text of the
    field and touches nothing else of the window. *)
Definition edits_text_only (super : QKeyEvent -> M unit) : Prop :=
  forall (event : QKeyEvent) (w : World),
    exists (t : QTextEdit) (r : Result unit),
      super event w = (set_text_edit t w, r).

(** The three indicators of a request in progress say the same thing. *)
Definition indicators_agree (w : World) : Prop :=
  animation_running (button w) = disabled (button w) /\
  status_label w = if disabled (button w) then speaking_text else [].

(** A button that does not pulse wears the default style sheet. *)
Definition no_pulse_residue (w : World) : Prop :=
  animation_running (button w) = false ->
  styleSheet (button w) = DefaultStyle.

(** The scratch files a trace created, and those it scheduled for
    deletion, oldest first. *)
Fixpoint created_files (l : list Event) : list Path :=
  match l with
  | [] => []
  | EvNamedTemporaryFile _ (Ok path) :: l' => path :: created_files l'
  | _ :: l' => created_files l'
  end.

Fixpoint deletions_scheduled (l : list Event) : list Path :=
  match l with
  | [] => []
  | EvSingleShot _ (CbRemove path) :: l' => path :: deletions_scheduled l'
  | _ :: l' => deletions_scheduled l'
  end.

(** A non-empty string with no whitespace at either end. *)
Definition trimmed (s : str) : bool :=
  match s with
  | [] => false
  | c :: _ => negb (isspace c) && negb (isspace (last s c))
  end.

Definition well_formed_request (ev : Event) : Prop :=
  match ev with
  | EvgTTS text lang _ _ => trimmed text = true /\ lang = lang_de
  | _ => True
  end.

(** What one handler may have done to the window and to the trace when it
    ends, normally or not: the checkbox is as before; the trace has grown by
    calls that schedule the deletion of every scratch file they create and
    whose synthesis requests are well formed; and the button and the status
    label are untouched, or show a request in progress, or were reset by the
    completion callback, or only the look of a pulsing button changed. *)
Definition handler_effect (w w' : World) : Prop :=
  slow_checkbox w' = slow_checkbox w /\
  (exists new,
     log w' = log w ++ new /\
     created_files (map snd new) = deletions_scheduled (map snd new) /\
     Forall well_formed_request (map snd new)) /\
  ((button w' = button w /\ status_label w' = status_label w) \/
   (button w' = mkButton true true (styleSheet (button w))
                         (_opacity (button w)) /\
    status_label w' = speaking_text) \/
   (button w' = mkButton false false DefaultStyle (_opacity (button w)) /\
    status_label w' = []) \/
   (animation_running (button w) = true /\
    disabled (button w') = disabled (button w) /\
    animation_running (button w') = true /\
    status_label w' = status_label w)).



Definition is_key_press (i : Input) : bool :=
  match i with KeyPress _ => true | _ => false end.


(** * Tactics *)

Ltac unfold_handlers :=
  cbv beta iota zeta delta
    [text_to_speech speak done_speaking stop_animation new_gTTS
     NamedTemporaryFile save music_load music_play Sound_get_length
     os_remove run_callback try_finally bind call lift ret setDisabled
     start_animation setStyleSheet setText singleShot record
     after_call set_animation_running set_button set_status_label
     set_timers set_log set_text_edit default_style negb
     text_edit slow_checkbox button status_label now timers calls log
     disabled animation_running styleSheet _opacity].

Ltac split_outcomes :=
  repeat match goal with
         | |- context [match ?r with Ok _ => _ | Raise _ => _ end] =>
             let H := fresh "Hr" in destruct r eqn:H; unfold_handlers
         end.

Ltac flatten_log := rewrite <- ?app_assoc; cbn [app].

Ltac compute_events :=
  unfold events_since; cbn [log]; flatten_log;
  rewrite ?skipn_app, ?skipn_all, ?Nat.sub_diag;
  cbn [skipn app map snd fst].

(** Runs [text_to_speech] on a world with non-empty trimmed text, one goal
    per way the collaborators can answer. *)
Ltac run_submit Hne H :=
  unfold text_to_speech in H; rewrite Hne in H; revert H;
  unfold_handlers; split_outcomes;
  intros H; injection H as <- <-; compute_events.

(** Picks the save among the recorded calls, or closes the goal when the
    submit did not get that far. *)
Ltac find_save Hin :=
  cbn [In] in Hin;
  repeat (destruct Hin as [Hin|Hin]; [try discriminate Hin|]);
  try contradiction;
  injection Hin as <- <- <-.


(** * Properties *)

(** ** Whitespace *)

Lemma lstrip_head (s : str) (c : char) (t : str) :
  lstrip s = c :: t -> isspace c = false.
Proof.
  induction s as [|a s IH]; simpl; [discriminate|].
  destruct (isspace a) eqn:Ha; [exact IH|].
  intros H; injection H as <- _; exact Ha.
Qed.

Lemma lstrip_nil_iff (s : str) :
  lstrip s = [] <-> forallb isspace s = true.
Proof.
  induction s as [|a s IH]; simpl; [tauto|].
  destruct (isspace a); simpl; [exact IH|].
  split; discriminate.
Qed.

Lemma forallb_lstrip (s : str) :
  forallb isspace (lstrip s) = true <-> lstrip s = [].
Proof.
  split.
  - destruct (lstrip s) as [|c t] eqn:Hs; [reflexivity|].
    simpl; rewrite (lstrip_head _ _ _ Hs); discriminate.
  - intros ->; reflexivity.
Qed.

Lemma forallb_rev {A} (f : A -> bool) (l : list A) :
  forallb f (rev l) = forallb f l.
Proof.
  induction l as [|a l IH]; simpl; [reflexivity|].
  rewrite forallb_app, IH; simpl.
  rewrite andb_true_r; apply andb_comm.
Qed.

(** A string trims to the empty string exactly when it is empty or made of
    whitespace only. *)
Lemma strip_nil_iff (s : str) :
  strip s = [] <-> forallb isspace s = true.
Proof.
  unfold strip, rstrip.
  rewrite <- lstrip_nil_iff.
  split.
  - intros H.
    assert (Hr : lstrip (rev (lstrip s)) = []).
    { destruct (lstrip (rev (lstrip s))) as [|c t]; [reflexivity|].
      simpl in H; destruct (rev t); discriminate. }
    apply lstrip_nil_iff in Hr.
    rewrite forallb_rev in Hr.
    apply forallb_lstrip; exact Hr.
  - intros ->; reflexivity.
Qed.

(** ** Input capture *)

Lemma land_ShiftModifier (m : Z) :
  Z.land m ShiftModifier = if Z.testbit m 25 then ShiftModifier else 0.
Proof.
  apply Z.bits_inj'; intros n Hn.
  rewrite Z.land_spec.
  change ShiftModifier with (2 ^ 25).
  destruct (Z.testbit m 25) eqn:Hb.
  - rewrite Z.pow2_bits_eqb by lia.
    destruct (Z.eqb_spec 25 n) as [<-|Hne].
    + rewrite Hb; reflexivity.
    + apply andb_false_r.
  - rewrite Z.pow2_bits_eqb by lia.
    rewrite Z.bits_0.
    destruct (Z.eqb_spec 25 n) as [<-|Hne].
    + rewrite Hb; reflexivity.
    + apply andb_false_r.
Qed.

Lemma shift_test (m : Z) :
  negb (Z.land m ShiftModifier =? 0) = Z.testbit m 25.
Proof.
  rewrite land_ShiftModifier.
  destruct (Z.testbit m 25); reflexivity.
Qed.

Lemma enter_test (k : Z) :
  (k =? Key_Return) || (k =? Key_Enter) = true <->
  k = Key_Return \/ k = Key_Enter.
Proof.
  rewrite orb_true_iff, !Z.eqb_eq; tauto.
Qed.

(** C6. The key routing of the text field. With Enter or Return and the
    Shift bit set, one newline is inserted at the cursor (replacing the
    selection, if any), nothing else in the window changes, and neither the
    callback nor the base class handler runs. With Enter or Return and the
    Shift bit clear, the handler does what the callback does, once, and
    nothing else: no newline, no base class handler. Any other key goes to
    the base class handler and nowhere else. *)
Theorem keyPressEvent_routing
    (super : QKeyEvent -> M unit) (on_enter : option (M unit))
    (callback : M unit) (event : QKeyEvent) (w : World) :
  (key event = Key_Return \/ key event = Key_Enter ->
   Z.testbit (modifiers event) 25 = true ->
   keyPressEvent super on_enter event w =
     (mkWorld (mkTextEdit (before_cursor (text_edit w) ++ [10%N]) []
                          (after_cursor (text_edit w)))
              (slow_checkbox w) (button w) (status_label w) (now w)
              (timers w) (calls w)
              (log w ++ [(now w, EvInsertPlainText [10%N])]),
      Ok tt)) /\
  (key event = Key_Return \/ key event = Key_Enter ->
   Z.testbit (modifiers event) 25 = false ->
   keyPressEvent super (Some callback) event w = callback w /\
   keyPressEvent super None event w = (w, Ok tt)) /\
  (~ (key event = Key_Return \/ key event = Key_Enter) ->
   keyPressEvent super on_enter event w = super event w).
Proof.
  unfold keyPressEvent.
  rewrite shift_test.
  split; [|split].
  - intros Hk Hs.
    apply enter_test in Hk; rewrite Hk, Hs.
    reflexivity.
  - intros Hk Hs.
    apply enter_test in Hk; rewrite Hk, Hs.
    split; reflexivity.
  - intros Hk.
    destruct ((key event =? Key_Return) || (key event =? Key_Enter)) eqn:Hb.
    + apply enter_test in Hb; contradiction.
    + reflexivity.
Qed.

Lemma keyPressEvent_routing_witness :
  keyPressEvent Fixture.base_keyPressEvent (Some (text_to_speech Fixture.healthy))
    Fixture.shift_enter (Fixture.idle Fixture.hallo) =
    (mkWorld (mkTextEdit (Fixture.hallo ++ [10%N]) [] []) true
             (mkButton false false DefaultStyle Fixture.one) [] 0 [] 0
             [(0, EvInsertPlainText [10%N])], Ok tt) /\
  keyPressEvent Fixture.base_keyPressEvent (Some (text_to_speech Fixture.healthy))
    Fixture.plain_enter (Fixture.idle Fixture.hallo) =
    text_to_speech Fixture.healthy (Fixture.idle Fixture.hallo) /\
  keyPressEvent Fixture.base_keyPressEvent (Some (text_to_speech Fixture.healthy))
    Fixture.letter_a (Fixture.idle Fixture.hallo) =
    Fixture.base_keyPressEvent Fixture.letter_a (Fixture.idle Fixture.hallo).
Proof.
  split; [|split].
  - apply (keyPressEvent_routing Fixture.base_keyPressEvent
             (Some (text_to_speech Fixture.healthy))
             (text_to_speech Fixture.healthy) Fixture.shift_enter
             (Fixture.idle Fixture.hallo)).
    + right; reflexivity.
    + reflexivity.
  - apply (keyPressEvent_routing Fixture.base_keyPressEvent
             (Some (text_to_speech Fixture.healthy))
             (text_to_speech Fixture.healthy) Fixture.plain_enter
             (Fixture.idle Fixture.hallo)).
    + left; reflexivity.
    + reflexivity.
  - apply (keyPressEvent_routing Fixture.base_keyPressEvent
             (Some (text_to_speech Fixture.healthy))
             (text_to_speech Fixture.healthy) Fixture.letter_a
             (Fixture.idle Fixture.hallo)).
    intros [H|H]; discriminate H.
Defined.

(** ** Traces *)

Lemma events_since_app (w w' : World) (l : list (Z * Event)) :
  log w' = log w ++ l -> events_since w w' = map snd l.
Proof.
  intros H; unfold events_since; rewrite H.
  rewrite skipn_app, skipn_all, Nat.sub_diag; reflexivity.
Qed.

(** ** The empty submit *)

(** C2. When the text of the field is empty or whitespace only, that is
    when it trims to the empty string, [text_to_speech] returns normally and
    leaves the whole world as it found it: no collaborator was called, no
    timer registered, nothing recorded, and the button, the status label and
    the UI state are unchanged. *)
Theorem text_to_speech_blank (E : Env) (w : World) :
  forallb isspace (toPlainText (text_edit w)) = true \/
  strip (toPlainText (text_edit w)) = [] ->
  text_to_speech E w = (w, Ok tt).
Proof.
  intros H.
  assert (Hs : strip (toPlainText (text_edit w)) = []).
  { destruct H as [H|H]; [apply strip_nil_iff|]; exact H. }
  unfold text_to_speech.
  rewrite Hs; reflexivity.
Qed.

Lemma text_to_speech_blank_witness :
  text_to_speech Fixture.healthy (Fixture.idle [32; 9; 10; 160]%N) =
    (Fixture.idle [32; 9; 10; 160]%N, Ok tt) /\
  ui_state (Fixture.idle [32; 9; 10; 160]%N) = Idle.
Proof.
  split.
  - apply (text_to_speech_blank Fixture.healthy
             (Fixture.idle [32; 9; 10; 160]%N)).
    left; reflexivity.
  - reflexivity.
Defined.

(** ** The completion callback *)

(** C8. [done_speaking] always returns, and changes exactly this: the
    button is enabled again, its animation is stopped and its style sheet is
    the default one, and the status label is empty, so the UI is Idle. The
    text field, the checkbox, the clock, the pending timers and the opacity
    value stay as they were, and the four widget calls are recorded in that
    order. It is what the timer registered for it runs. *)
Theorem done_speaking_effect (E : Env) (w : World) :
  done_speaking w =
    (mkWorld (text_edit w) (slow_checkbox w)
             (mkButton false false DefaultStyle (_opacity (button w))) []
             (now w) (timers w) (calls w)
             (log w ++ [(now w, EvSetDisabled false);
                        (now w, EvAnimationStop);
                        (now w, EvSetStyleSheet DefaultStyle);
                        (now w, EvSetText [])]),
     Ok tt) /\
  ui_state (fst (done_speaking w)) = Idle /\
  run_callback E CbDoneSpeaking w = done_speaking w.
Proof.
  destruct w as [te sc [bd ba bs bo] sl n0 tm c0 lg].
  unfold ui_state.
  unfold_handlers.
  flatten_log.
  repeat split.
Qed.

(** ** The submit sequence *)

(** C7. A submit with non-empty trimmed text makes its calls in the order
    of the six steps: whatever the collaborators answer, the recorded calls
    begin with disabling the button, starting the animation and setting the
    status to the speaking text, and the step numbers of the recorded calls
    never decrease; when the submit returns normally the calls are exactly
    the synthesis request, the scratch file, the save, load and play, the
    measurement, the completion timer and the deletion timer, in that
    order. *)
Theorem submit_order (E : Env) (w w' : World) (r : Result unit) :
  truthy (strip (toPlainText (text_edit w))) = true ->
  text_to_speech E w = (w', r) ->
  (exists rest,
     events_since w w' =
       EvSetDisabled true :: EvAnimationStart :: EvSetText speaking_text
       :: rest) /\
  StronglySorted Nat.le (map step_of (events_since w w')) /\
  (r = Ok tt ->
   exists (path : Path) (l : SoundLength) (d : Z),
     events_since w w' =
       [EvSetDisabled true; EvAnimationStart; EvSetText speaking_text;
        EvgTTS (strip (toPlainText (text_edit w))) lang_de (slow_checkbox w)
               (Ok tt);
        EvNamedTemporaryFile ".mp3" (Ok path);
        EvSave (mkgTTS (strip (toPlainText (text_edit w))) lang_de
                       (slow_checkbox w)) path (Ok tt);
        EvMusicLoad path (Ok tt);
        EvMusicPlay (Ok tt);
        EvGetLength path (Ok l);
        EvSingleShot d CbDoneSpeaking;
        EvSingleShot 1500 (CbRemove path)]).
Proof.
  intros Hne H.
  destruct w as [te sc [bd ba bs bo] sl n0 tm c0 lg].
  run_submit Hne H.
  all: split; [eexists; reflexivity|].
  all: split; [cbn [map step_of]; repeat constructor|].
  all: try discriminate.
  intros _.
  repeat match goal with u : unit |- _ => destruct u end.
  do 3 eexists; reflexivity.
Qed.

Lemma submit_order_witness :
  let w := Fixture.idle Fixture.hallo in
  let w' := fst (text_to_speech Fixture.healthy w) in
  StronglySorted Nat.le (map step_of (events_since w w')) /\
  List.length (events_since w w') = 11%nat.
Proof.
  intros w w'.
  destruct (submit_order Fixture.healthy w w'
              (snd (text_to_speech Fixture.healthy w)))
    as (_ & Hsorted & _).
  - reflexivity.
  - apply surjective_pairing.
  - split; [exact Hsorted | reflexivity].
Defined.

(** ** The synthesis request *)

(** C9. A submit with non-empty trimmed text builds exactly one synthesis
    request, whatever happens afterwards: its text is the trimmed text of the
    field, unchanged, its language is ['de'] and its slow flag, a boolean,
    is the state of the checkbox when the submit starts. If audio is saved
    at all it is saved once, from that request. *)
Theorem one_synthesis_request (E : Env) (w w' : World) (r : Result unit) :
  truthy (strip (toPlainText (text_edit w))) = true ->
  text_to_speech E w = (w', r) ->
  (exists res,
     filter is_synthesis_request (events_since w w') =
       [EvgTTS (strip (toPlainText (text_edit w))) lang_de (slow_checkbox w)
               res]) /\
  (forall tts path res,
     In (EvSave tts path res) (events_since w w') ->
     tts = mkgTTS (strip (toPlainText (text_edit w))) lang_de
                  (slow_checkbox w)) /\
  (List.length (filter is_save (events_since w w')) <= 1)%nat /\
  (r = Ok tt ->
   List.length (filter is_save (events_since w w')) = 1%nat).
Proof.
  intros Hne H.
  destruct w as [te sc [bd ba bs bo] sl n0 tm c0 lg].
  run_submit Hne H.
  all: cbn [filter is_synthesis_request is_save List.length In].
  all: split; [eexists; reflexivity|].
  all: split;
    [intros tts path res Hin;
     repeat (destruct Hin as [Hin|Hin]; [try discriminate Hin|]);
     try contradiction; injection Hin as <- _ _; reflexivity|].
  all: split; [lia|].
  all: try discriminate.
  reflexivity.
Qed.

Lemma one_synthesis_request_witness :
  let w := Fixture.idle Fixture.hallo in
  let w' := fst (text_to_speech (Fixture.failing_at 3 pygame_error) w) in
  exists res,
    filter is_synthesis_request (events_since w w') =
      [EvgTTS Fixture.hallo lang_de true res].
Proof.
  intros w w'.
  destruct (one_synthesis_request (Fixture.failing_at 3 pygame_error) w w'
              (snd (text_to_speech (Fixture.failing_at 3 pygame_error) w)))
    as (Hreq & _).
  - reflexivity.
  - apply surjective_pairing.
  - exact Hreq.
Defined.

(** ** Failures *)

(** C5. Let the synthesis request, the creation of the scratch file or the
    save into it raise [e], the calls before it having returned. Then the
    submit ends by raising that same [e]: nothing in it catches the error.
    The world it leaves has the button disabled, the animation running and
    the status label still at the speaking text, so the UI is Speaking; no
    completion callback was scheduled: the pending completion timers are
    those that were pending before, and the calls of this submit contain no
    completion timer. *)
Theorem failure_leaves_speaking (E : Env) (w : World) (e : Exn) :
  let text := strip (toPlainText (text_edit w)) in
  let slow := slow_checkbox w in
  truthy text = true ->
  (env_gTTS E (calls w) text lang_de slow = Raise e \/
   (env_gTTS E (calls w) text lang_de slow = Ok tt /\
    env_NamedTemporaryFile E (S (calls w)) ".mp3" = Raise e) \/
   (env_gTTS E (calls w) text lang_de slow = Ok tt /\
    exists path,
      env_NamedTemporaryFile E (S (calls w)) ".mp3" = Ok path /\
      env_save E (S (S (calls w))) (mkgTTS text lang_de slow) path
        = Raise e)) ->
  exists w',
    text_to_speech E w = (w', Raise e) /\
    disabled (button w') = true /\
    animation_running (button w') = true /\
    status_label w' = speaking_text /\
    ui_state w' = Speaking /\
    filter is_done (timers w') = filter is_done (timers w) /\
    filter schedules_completion (events_since w w') = [].
Proof.
  intros text slow Hne H; subst text slow.
  destruct w as [te sc [bd ba bs bo] sl n0 tm c0 lg].
  cbn [text_edit slow_checkbox calls] in Hne, H.
  unfold text_to_speech, ui_state.
  cbn [text_edit slow_checkbox].
  rewrite Hne.
  unfold_handlers.
  destruct H as [H | [(H1 & H2) | (H1 & path & H2 & H3)]].
  - rewrite H; unfold_handlers.
    eexists; split; [reflexivity|].
    compute_events.
    cbn [button disabled animation_running status_label timers].
    repeat split.
  - rewrite H1; unfold_handlers.
    rewrite H2; unfold_handlers.
    eexists; split; [reflexivity|].
    compute_events.
    cbn [button disabled animation_running status_label timers].
    repeat split.
  - rewrite H1; unfold_handlers.
    rewrite H2; unfold_handlers.
    rewrite H3; unfold_handlers.
    eexists; split; [reflexivity|].
    compute_events.
    cbn [button disabled animation_running status_label timers].
    repeat split.
    rewrite filter_app; cbn [filter is_done snd].
    apply app_nil_r.
Qed.

Lemma failure_leaves_speaking_witness :
  exists w',
    text_to_speech (Fixture.failing_at 2 gTTSError)
      (Fixture.idle Fixture.hallo) = (w', Raise gTTSError) /\
    ui_state w' = Speaking /\
    filter is_done (timers w') = [].
Proof.
  destruct (failure_leaves_speaking (Fixture.failing_at 2 gTTSError)
              (Fixture.idle Fixture.hallo) gTTSError)
    as (w' & Hrun & _ & _ & _ & Hui & Htimers & _).
  - reflexivity.
  - right; right.
    split; [reflexivity|].
    exists "/tmp/tmpq3x1.mp3"%string.
    split; reflexivity.
  - exists w'; repeat split; assumption.
Defined.

(** ** Timing of the completion callback *)

Lemma int_binary_round_aux_nonneg (m e : Z) (l : location) (d : Z) :
  int (binary_round_aux prec emax false m e l) = Ok d -> 0 <= d.
Proof.
  unfold binary_round_aux.
  destruct (shr_fexp prec emax m e l) as [mrs e'].
  destruct (shr_fexp prec emax _ e' loc_Exact) as [mrs' e''].
  destruct (shr_m mrs') as [|p|p]; cbn [int].
  - intros H; injection H as <-; lia.
  - destruct (e'' <=? emax - prec); cbn [int cond_Zopp].
    + intros H; injection H as <-.
      apply Z.shiftl_nonneg; lia.
    + discriminate.
  - discriminate.
Qed.

(** A measured length never yields a negative delay. *)
Lemma duration_ms_nonneg (l : SoundLength) (d : Z) :
  duration_ms_of l = Ok d -> 0 <= d.
Proof.
  unfold duration_ms_of, float_of_length.
  change (float_of_int 1000) with (S754_finite false 8796093022208000 (-43)).
  destruct (mantissa l) as [|m].
  - cbn. intros H; injection H as <-; lia.
  - unfold float_mul, SFmul; cbn [xorb].
    apply int_binary_round_aux_nonneg.
Qed.

Lemma fire_not_due (E : Env) (w : World) (i : nat) (due : Z) (cb : Callback) :
  nth_error (timers w) i = Some (due, cb) ->
  now w < due ->
  fire E i w = (w, Ok tt).
Proof.
  intros Hi Hlt; unfold fire; rewrite Hi.
  destruct (Z.leb_spec due (now w)); [lia | reflexivity].
Qed.

Lemma fire_due (E : Env) (w : World) (i : nat) (due : Z) (cb : Callback) :
  nth_error (timers w) i = Some (due, cb) ->
  due <= now w ->
  fire E i w = run_callback E cb (set_timers (remove_nth i (timers w)) w).
Proof.
  intros Hi Hle; unfold fire; rewrite Hi.
  destruct (Z.leb_spec due (now w)); [reflexivity | lia].
Qed.

(** C3. A submit that returns normally has started playback at some time
    [t_play] and then, at [t_timer >= t_play], registered one single-shot
    timer for [done_speaking] with the delay [d = int(length * 1000)], where
    [length] is what the mixer measured on the scratch file of this very
    submit; [d] is not negative. The callback has not run when the submit
    returns (the button is still disabled); the event loop runs it, once,
    only when the clock has reached [t_timer + d], so never before
    [t_play + d], and what it records comes after the start of playback in
    the trace. The delay is a function of the measured length and not a
    constant: one second gives 1000 ms, two and a half seconds 2500 ms. *)
Theorem completion_after_playback (E : Env) (w w' : World) :
  truthy (strip (toPlainText (text_edit w))) = true ->
  text_to_speech E w = (w', Ok tt) ->
  (exists (path : Path) (l : SoundLength) (d t_play t_timer : Z)
          (earlier : list (Z * Event)),
     log w' = log w ++ earlier ++
                [(t_play, EvMusicPlay (Ok tt));
                 (t_timer, EvGetLength path (Ok l));
                 (t_timer, EvSingleShot d CbDoneSpeaking);
                 (t_timer, EvSingleShot 1500 (CbRemove path))] /\
     In (EvNamedTemporaryFile ".mp3" (Ok path)) (map snd earlier) /\
     duration_ms_of l = Ok d /\
     0 <= d /\
     t_play <= t_timer /\
     timers w' = timers w ++ [(t_timer + d, CbDoneSpeaking);
                              (t_timer + 1500, CbRemove path)] /\
     disabled (button w') = true /\
     forall (E2 : Env) (w2 : World) (i : nat),
       nth_error (timers w2) i = Some (t_timer + d, CbDoneSpeaking) ->
       (now w2 < t_play + d -> fire E2 i w2 = (w2, Ok tt)) /\
       (t_timer + d <= now w2 ->
        fire E2 i w2 =
          done_speaking (set_timers (remove_nth i (timers w2)) w2) /\
        exists later,
          log (fst (fire E2 i w2)) = log w2 ++ later)) /\
  duration_ms_of (mkLength 1 0) = Ok 1000 /\
  duration_ms_of (mkLength 5 (-1)) = Ok 2500.
Proof.
  intros Hne H.
  split; [|split; vm_compute; reflexivity].
  destruct w as [te sc [bd ba bs bo] sl n0 tm c0 lg].
  unfold text_to_speech in H; rewrite Hne in H; revert H.
  unfold_handlers; split_outcomes.
  all: intros H; try discriminate H; injection H as <-.
  repeat match goal with u : unit |- _ => destruct u end.
  match goal with
  | Hd : duration_ms_of ?l = Ok ?d,
    Hp : env_NamedTemporaryFile _ _ _ = Ok ?p |- _ =>
      exists p, l, d
  end.
  cbn [log timers button disabled].
  flatten_log.
  do 2 eexists.
  refine (ex_intro _ [_; _; _; _; _; _; _] _).
  split; [reflexivity|].
  split; [cbn; tauto|].
  split; [assumption|].
  split; [eapply duration_ms_nonneg; eassumption|].
  split; [lia|].
  split; [reflexivity|].
  split; [reflexivity|].
  intros E2 w2 i Hi.
  split.
  - intros Hlt.
    apply (fire_not_due E2 w2 i _ _ Hi); unfold now in *; lia.
  - intros Hdue.
    rewrite (fire_due E2 w2 i _ _ Hi Hdue).
    split; [reflexivity|].
    destruct w2 as [te2 sc2 [bd2 ba2 bs2 bo2] sl2 n2 tm2 c2 lg2].
    unfold_handlers; cbn [fst log]; flatten_log.
    eexists; reflexivity.
Qed.

Lemma completion_after_playback_witness :
  let w := Fixture.idle Fixture.hallo in
  let w' := fst (text_to_speech Fixture.healthy w) in
  exists (path : Path) (d t_play t_timer : Z),
    0 <= d /\ t_play <= t_timer /\
    timers w' = [(t_timer + d, CbDoneSpeaking);
                 (t_timer + 1500, CbRemove path)].
Proof.
  intros w w'.
  destruct (completion_after_playback Fixture.healthy w w')
    as ((path & l & d & t_play & t_timer & earlier & _ & _ & _ & Hd & Ht
         & Htimers & _) & _).
  - reflexivity.
  - reflexivity.
  - exists path, d, t_play, t_timer.
    repeat split; assumption.
Defined.

(** ** Deletion of the scratch file *)

Lemma events_since_refl (w : World) : events_since w w = [].
Proof.
  unfold events_since; rewrite skipn_all; reflexivity.
Qed.

(** C4. A submit that gets to the synthesis step, the call
    [tts.save(temp_path)] that fetches the audio into the scratch file,
    schedules the deletion of that file exactly once, last of all its calls,
    with the delay 1500 ms: the timer is due 1500 ms after the moment the
    submit returns. This holds under every environment, hence whatever
    length the mixer measures and whether or not the measurement is reached;
    the other timers the submit registered, if any, are completion timers.
    When the deletion timer is looked at on or after its due time it runs
    [os.remove(temp_path)], whatever the state of the button, of the
    animation and of the other pending timers. *)
Theorem deletion_delay_fixed
    (E : Env) (w w' : World) (r : Result unit)
    (tts : gTTS) (path : Path) (res : Result unit) :
  text_to_speech E w = (w', r) ->
  In (EvSave tts path res) (events_since w w') ->
  filter schedules_deletion (events_since w w') =
    [EvSingleShot 1500 (CbRemove path)] /\
  (exists pending,
     timers w' = timers w ++ pending ++ [(now w' + 1500, CbRemove path)] /\
     forallb is_done pending = true) /\
  (forall (E2 : Env) (w2 : World) (i : nat),
     nth_error (timers w2) i = Some (now w' + 1500, CbRemove path) ->
     now w' + 1500 <= now w2 ->
     fire E2 i w2 =
       os_remove E2 path (set_timers (remove_nth i (timers w2)) w2)).
Proof.
  intros H Hin.
  split; [|split].
  3: { intros E2 w2 i Hi Hdue.
       rewrite (fire_due E2 w2 i _ _ Hi Hdue); reflexivity. }
  all: destruct (truthy (strip (toPlainText (text_edit w)))) eqn:Hne;
    [| unfold text_to_speech in H; rewrite Hne in H;
       injection H as <- <-; rewrite events_since_refl in Hin;
       contradiction ].
  all: destruct w as [te sc [bd ba bs bo] sl n0 tm c0 lg].
  all: revert Hin; run_submit Hne H; intros Hin; find_save Hin.
  all: try reflexivity.
  all: cbn [timers now]; rewrite <- ?app_assoc.
  all: first [ exists []; split; reflexivity
             | eexists [_]; split; reflexivity ].
Qed.

Lemma deletion_delay_fixed_witness :
  let w := Fixture.idle Fixture.hallo in
  let w' := fst (text_to_speech Fixture.healthy w) in
  filter schedules_deletion (events_since w w') =
    [EvSingleShot 1500 (CbRemove "/tmp/tmpq3x1.mp3"%string)] /\
  In (EvSave (mkgTTS Fixture.hallo lang_de true) "/tmp/tmpq3x1.mp3"%string
        (Ok tt)) (events_since w w').
Proof.
  intros w w'.
  assert (Hin : In (EvSave (mkgTTS Fixture.hallo lang_de true)
                      "/tmp/tmpq3x1.mp3"%string (Ok tt))
                   (events_since w w')).
  { vm_compute; do 5 right; left; reflexivity. }
  split; [|exact Hin].
  apply (deletion_delay_fixed Fixture.healthy w w'
           (snd (text_to_speech Fixture.healthy w))
           (mkgTTS Fixture.hallo lang_de true) "/tmp/tmpq3x1.mp3"%string
           (Ok tt)).
  - apply surjective_pairing.
  - exact Hin.
Defined.

(** The deletion timer does not wait for the completion callback: with a
    clip of 2.5 seconds the scratch file is removed while the UI is still
    Speaking. *)
Example deletion_during_playback :
  let run := exec Fixture.healthy Fixture.base_keyPressEvent
               [Click; Tick 1500; Timeout 1] (Fixture.idle Fixture.hallo) in
  snd run = Ok tt /\
  ui_state (fst run) = Speaking /\
  timers (fst run) = [(2740, CbDoneSpeaking)] /\
  In (EvRemove "/tmp/tmpq3x1.mp3"%string (Ok tt))
     (events_since (Fixture.idle Fixture.hallo) (fst run)).
Proof.
  vm_compute.
  repeat split.
  do 11 right; left; reflexivity.
Qed.

(** C10. A submit that gets to the synthesis step, the call
    [tts.save(temp_path)], ends its calls by scheduling the deletion of the
    scratch file at 1500 ms, however the submit ends: normally, or with the
    error of the save (a failed synthesis or a failed write), of the load,
    of the start of playback, of the measurement or of its conversion. When
    it ends with an error, that error is the one that leaves the submit and
    no completion callback was scheduled: the pending completion timers are
    those pending before, and the calls of this submit contain none; when
    it ends normally the completion callback was scheduled. *)
Theorem cleanup_scheduled_on_every_path
    (E : Env) (w w' : World) (r : Result unit)
    (tts : gTTS) (path : Path) (res : Result unit) :
  text_to_speech E w = (w', r) ->
  In (EvSave tts path res) (events_since w w') ->
  (exists earlier,
     events_since w w' = earlier ++ [EvSingleShot 1500 (CbRemove path)]) /\
  In (now w' + 1500, CbRemove path) (timers w') /\
  (forall e, r = Raise e ->
     filter is_done (timers w') = filter is_done (timers w) /\
     filter schedules_completion (events_since w w') = []) /\
  (forall e, res = Raise e -> r = Raise e) /\
  (r = Ok tt ->
   exists d, filter schedules_completion (events_since w w') =
               [EvSingleShot d CbDoneSpeaking]).
Proof.
  intros H Hin.
  destruct (truthy (strip (toPlainText (text_edit w)))) eqn:Hne.
  2: { unfold text_to_speech in H; rewrite Hne in H.
       injection H as <- <-; rewrite events_since_refl in Hin.
       contradiction. }
  destruct w as [te sc [bd ba bs bo] sl n0 tm c0 lg].
  revert Hin; run_submit Hne H; intros Hin; find_save Hin.
  all: cbn [timers now filter schedules_completion].
  all: split;
    [first [ eexists [_; _; _; _; _; _; _; _; _; _]; reflexivity
           | eexists [_; _; _; _; _; _; _; _; _]; reflexivity
           | eexists [_; _; _; _; _; _; _; _]; reflexivity
           | eexists [_; _; _; _; _; _; _]; reflexivity
           | eexists [_; _; _; _; _; _]; reflexivity ]|].
  all: split; [apply in_or_app; right; cbn [In]; tauto|].
  all: split;
    [intros e0 He0;
     first [ discriminate He0
           | split; [|reflexivity];
             rewrite filter_app; cbn [filter is_done snd]; apply app_nil_r ]|].
  all: split; [intros e0 He0; first [discriminate He0 | exact He0]|].
  all: intros Hok; try discriminate Hok.
  eexists; reflexivity.
Qed.

Lemma cleanup_scheduled_on_every_path_witness :
  let w := Fixture.idle Fixture.hallo in
  let w' := fst (text_to_speech (Fixture.failing_at 4 pygame_error) w) in
  In (now w' + 1500, CbRemove "/tmp/tmpq3x1.mp3"%string) (timers w') /\
  snd (text_to_speech (Fixture.failing_at 4 pygame_error) w)
    = Raise pygame_error.
Proof.
  intros w w'.
  split; [|reflexivity].
  apply (cleanup_scheduled_on_every_path (Fixture.failing_at 4 pygame_error)
           w w' (snd (text_to_speech (Fixture.failing_at 4 pygame_error) w))
           (mkgTTS Fixture.hallo lang_de true) "/tmp/tmpq3x1.mp3"%string
           (Ok tt)).
  - apply surjective_pairing.
  - vm_compute; do 5 right; left; reflexivity.
Defined.

(** The guarded block starts after the request is built and the scratch
    file created: when either of these two calls raises, the submit ends
    with that error and has scheduled nothing. *)
Lemma nothing_scheduled_before_try (E : Env) (w : World) (e : Exn) :
  truthy (strip (toPlainText (text_edit w))) = true ->
  env_gTTS E (calls w) (strip (toPlainText (text_edit w))) lang_de
    (slow_checkbox w) = Raise e \/
  (env_gTTS E (calls w) (strip (toPlainText (text_edit w))) lang_de
     (slow_checkbox w) = Ok tt /\
   env_NamedTemporaryFile E (S (calls w)) ".mp3" = Raise e) ->
  exists w',
    text_to_speech E w = (w', Raise e) /\ timers w' = timers w.
Proof.
  intros Hne H.
  destruct w as [te sc [bd ba bs bo] sl n0 tm c0 lg].
  cbn [text_edit slow_checkbox calls] in Hne, H.
  unfold text_to_speech.
  cbn [text_edit slow_checkbox].
  rewrite Hne.
  unfold_handlers.
  destruct H as [H | (H1 & H2)].
  - rewrite H; unfold_handlers.
    eexists; split; reflexivity.
  - rewrite H1; unfold_handlers.
    rewrite H2; unfold_handlers.
    eexists; split; reflexivity.
Qed.

(** ** One request at a time? *)

(** The button path is closed while the UI is Speaking: a click on the
    disabled button does nothing. *)
Lemma click_while_speaking (E : Env) (w : World) :
  ui_state w = Speaking -> click E w = (w, Ok tt).
Proof.
  unfold ui_state, click.
  destruct (disabled (button w)); [reflexivity | discriminate].
Qed.

Lemma advance_advance (a b : N) (w : World) :
  advance b (advance a w) = advance (a + b) w.
Proof.
  unfold advance; cbn [text_edit slow_checkbox button status_label now
                       timers calls log].
  f_equal; lia.
Qed.

(** It stays closed for as long as the UI is Speaking: clicks and the
    passing of time, in any number and order, change nothing but the
    clock. *)
Lemma clicks_blocked_while_speaking
    (E : Env) (super : QKeyEvent -> M unit) (l : list Input) (w : World) :
  ui_state w = Speaking ->
  forallb is_click_or_tick l = true ->
  exists dt, exec E super l w = (advance dt w, Ok tt).
Proof.
  revert w; induction l as [|i l IH]; intros w Hs Hl.
  - exists 0%N.
    destruct w; unfold advance; cbn.
    rewrite Z.add_0_r; reflexivity.
  - cbn [forallb] in Hl; apply andb_true_iff in Hl as [Hi Hl].
    destruct i as [dt | | | |]; try discriminate Hi.
    + destruct (IH (advance dt w) Hs Hl) as [dt' Hrun].
      exists (dt + dt')%N.
      cbn [exec dispatch]; unfold bind.
      rewrite Hrun, advance_advance; reflexivity.
    + destruct (IH w Hs Hl) as [dt' Hrun].
      exists dt'.
      cbn [exec dispatch]; unfold bind.
      rewrite (click_while_speaking E w Hs); exact Hrun.
Qed.

(** The key path is not: plain Enter runs [text_to_speech] whether or not
    the button is disabled. *)
Lemma enter_ignores_button
    (E : Env) (super : QKeyEvent -> M unit) (event : QKeyEvent) (w : World) :
  key event = Key_Return \/ key event = Key_Enter ->
  Z.testbit (modifiers event) 25 = false ->
  key_press E super event w = text_to_speech E w.
Proof.
  intros Hk Hs; unfold key_press, keyPressEvent.
  apply enter_test in Hk; rewrite Hk, shift_test, Hs.
  reflexivity.
Qed.

(** C1, on the code. "Hallo" is in the field and the button is clicked: one
    request is in flight, the UI is Speaking and a further click changes
    nothing. Plain Enter in the text field 100 ms later starts a second
    request all the same: a second synthesis request is recorded and two
    completion callbacks are pending while the UI is Speaking. When the
    first of them fires, the button is enabled again although the second
    request is still in flight. *)
Theorem enter_resubmits_while_speaking :
  ui_state (fst (exec Fixture.healthy Fixture.base_keyPressEvent
                   [Click] (Fixture.idle Fixture.hallo))) = Speaking /\
  in_flight (fst (exec Fixture.healthy Fixture.base_keyPressEvent
                    [Click] (Fixture.idle Fixture.hallo))) = 1%nat /\
  exec Fixture.healthy Fixture.base_keyPressEvent [Click; Click]
    (Fixture.idle Fixture.hallo) =
  exec Fixture.healthy Fixture.base_keyPressEvent [Click]
    (Fixture.idle Fixture.hallo) /\
  snd (exec Fixture.healthy Fixture.base_keyPressEvent
         [Click; Tick 100; KeyPress Fixture.plain_enter]
         (Fixture.idle Fixture.hallo)) = Ok tt /\
  ui_state (fst (exec Fixture.healthy Fixture.base_keyPressEvent
                   [Click; Tick 100; KeyPress Fixture.plain_enter]
                   (Fixture.idle Fixture.hallo))) = Speaking /\
  in_flight (fst (exec Fixture.healthy Fixture.base_keyPressEvent
                    [Click; Tick 100; KeyPress Fixture.plain_enter]
                    (Fixture.idle Fixture.hallo))) = 2%nat /\
  filter is_synthesis_request
    (events_since (Fixture.idle Fixture.hallo)
       (fst (exec Fixture.healthy Fixture.base_keyPressEvent
               [Click; Tick 100; KeyPress Fixture.plain_enter]
               (Fixture.idle Fixture.hallo)))) =
    [EvgTTS Fixture.hallo lang_de true (Ok tt);
     EvgTTS Fixture.hallo lang_de true (Ok tt)] /\
  ui_state (fst (exec Fixture.healthy Fixture.base_keyPressEvent
                   [Click; Tick 100; KeyPress Fixture.plain_enter;
                    Tick 2200; Timeout 0]
                   (Fixture.idle Fixture.hallo))) = Idle /\
  in_flight (fst (exec Fixture.healthy Fixture.base_keyPressEvent
                    [Click; Tick 100; KeyPress Fixture.plain_enter;
                     Tick 2200; Timeout 0]
                    (Fixture.idle Fixture.hallo))) = 1%nat.
Proof.
  vm_compute.
  repeat split.
Qed.

(** * Further properties *)

(** ** Trimming *)

Lemma lstrip_suffix (s : str) : exists sp, s = sp ++ lstrip s.
Proof.
  induction s as [|a s [sp IH]]; cbn [lstrip].
  - exists []; reflexivity.
  - destruct (isspace a).
    + exists (a :: sp); cbn [app]; rewrite <- IH; reflexivity.
    + exists []; reflexivity.
Qed.

(** What [strip] returns is empty or has no whitespace at either end. *)
Lemma strip_trimmed (s : str) :
  truthy (strip s) = true -> trimmed (strip s) = true.
Proof.
  unfold strip, rstrip.
  destruct (lstrip_suffix (rev (lstrip s))) as [sp Hsp].
  destruct (lstrip (rev (lstrip s))) as [|d v] eqn:Hv; [discriminate|].
  intros _.
  assert (Hd : isspace d = false) by (eapply lstrip_head; exact Hv).
  assert (Hu : lstrip s = rev (d :: v) ++ rev sp).
  { rewrite <- rev_app_distr, <- Hsp, rev_involutive; reflexivity. }
  destruct (rev (d :: v)) as [|c t] eqn:Hr.
  - cbn [rev] in Hr; destruct (rev v); discriminate.
  - assert (Hc : isspace c = false) by (eapply lstrip_head; exact Hu).
    assert (Hl : last (c :: t) c = d).
    { rewrite <- Hr; cbn [rev]; apply last_last. }
    unfold trimmed; rewrite Hc, Hl, Hd; reflexivity.
Qed.

(** ** What the handlers do to the window and the trace *)

Lemma created_files_app (l1 l2 : list Event) :
  created_files (l1 ++ l2) = created_files l1 ++ created_files l2.
Proof.
  induction l1 as [|ev l1 IH]; [reflexivity|].
  destruct ev; cbn [app created_files]; try exact IH.
  destruct r; cbn [app]; [f_equal|]; exact IH.
Qed.

Lemma deletions_scheduled_app (l1 l2 : list Event) :
  deletions_scheduled (l1 ++ l2) =
  deletions_scheduled l1 ++ deletions_scheduled l2.
Proof.
  induction l1 as [|ev l1 IH]; [reflexivity|].
  destruct ev; cbn [app deletions_scheduled]; try exact IH.
  destruct cb; cbn [app]; [|f_equal]; exact IH.
Qed.

Lemma handler_effect_same (w w' : World) :
  slow_checkbox w' = slow_checkbox w ->
  log w' = log w ->
  button w' = button w ->
  status_label w' = status_label w ->
  handler_effect w w'.
Proof.
  intros Hc Hl Hb Hs.
  split; [exact Hc|].
  split; [|left; split; assumption].
  exists []; rewrite app_nil_r; repeat split; [exact Hl | constructor].
Qed.

Lemma handler_effect_refl (w : World) : handler_effect w w.
Proof.
  apply handler_effect_same; reflexivity.
Qed.

Lemma text_to_speech_effect (E : Env) (w w' : World) (r : Result unit) :
  text_to_speech E w = (w', r) ->
  handler_effect w w' /\ text_edit w' = text_edit w.
Proof.
  intros H.
  destruct (truthy (strip (toPlainText (text_edit w)))) eqn:Hne.
  2: { unfold text_to_speech in H; rewrite Hne in H.
       injection H as <- <-.
       split; [apply handler_effect_refl | reflexivity]. }
  pose proof (strip_trimmed _ Hne) as Htrim.
  destruct w as [te sc [bd ba bs bo] sl n0 tm c0 lg].
  unfold text_to_speech in H; rewrite Hne in H; revert H.
  cbn [text_edit] in Htrim.
  unfold handler_effect.
  unfold_handlers; split_outcomes.
  all: intros H; injection H as <- <-.
  all: cbn [text_edit slow_checkbox button status_label log disabled
            animation_running styleSheet _opacity].
  all: split; [|reflexivity].
  all: split; [reflexivity|].
  all: split; [|right; left; split; reflexivity].
  all: flatten_log; eexists; split; [reflexivity|].
  all: cbn [map snd created_files deletions_scheduled].
  all: split; [reflexivity|].
  all: repeat constructor; assumption.
Qed.

Lemma done_speaking_handler_effect (w : World) :
  handler_effect w (fst (done_speaking w)) /\
  text_edit (fst (done_speaking w)) = text_edit w.
Proof.
  destruct w as [te sc [bd ba bs bo] sl n0 tm c0 lg].
  unfold handler_effect.
  unfold_handlers.
  cbn [fst text_edit slow_checkbox button status_label log disabled
       animation_running styleSheet _opacity].
  split; [|reflexivity].
  split; [reflexivity|].
  split; [|right; right; left; split; reflexivity].
  flatten_log; eexists; split; [reflexivity|].
  cbn [map snd created_files deletions_scheduled].
  split; [reflexivity|].
  repeat constructor.
Qed.

Lemma os_remove_handler_effect (E : Env) (path : Path) (w : World) :
  handler_effect w (fst (os_remove E path w)) /\
  text_edit (fst (os_remove E path w)) = text_edit w.
Proof.
  destruct w as [te sc [bd ba bs bo] sl n0 tm c0 lg].
  unfold handler_effect.
  unfold_handlers.
  cbn [fst text_edit slow_checkbox button status_label log].
  split; [|reflexivity].
  split; [reflexivity|].
  split; [|left; split; reflexivity].
  eexists; split; [reflexivity|].
  cbn [map snd created_files deletions_scheduled].
  split; [reflexivity|].
  repeat constructor.
Qed.

Lemma handler_effect_set_timers (l : list (Z * Callback)) (w w' : World) :
  handler_effect (set_timers l w) w' -> handler_effect w w'.
Proof.
  destruct w; exact (fun H => H).
Qed.

Lemma fire_handler_effect (E : Env) (i : nat) (w : World) :
  handler_effect w (fst (fire E i w)) /\
  text_edit (fst (fire E i w)) = text_edit w.
Proof.
  unfold fire.
  destruct (nth_error (timers w) i) as [[due cb]|].
  2: { split; [apply handler_effect_refl | reflexivity]. }
  destruct (due <=? now w).
  2: { split; [apply handler_effect_refl | reflexivity]. }
  destruct cb as [|path]; cbn [run_callback].
  - destruct (done_speaking_handler_effect
                (set_timers (remove_nth i (timers w)) w)) as [He Ht].
    split; [eapply handler_effect_set_timers; exact He|].
    rewrite Ht; destruct w; reflexivity.
  - destruct (os_remove_handler_effect E path
                (set_timers (remove_nth i (timers w)) w)) as [He Ht].
    split; [eapply handler_effect_set_timers; exact He|].
    rewrite Ht; destruct w; reflexivity.
Qed.

Lemma set_opacity_handler_effect (value : float) (w : World) :
  animation_running (button w) = true ->
  handler_effect w (fst (set_opacity value w)) /\
  text_edit (fst (set_opacity value w)) = text_edit w.
Proof.
  intros Hrun.
  destruct w as [te sc [bd ba bs bo] sl n0 tm c0 lg].
  cbn [button animation_running] in Hrun; subst ba.
  unfold handler_effect, set_opacity.
  unfold_handlers.
  destruct (int (float_add (float_of_int 85)
                   (float_mul value (float_of_int 100)))) as [n|e].
  all: cbn [fst text_edit slow_checkbox button status_label log disabled
            animation_running].
  all: split; [|reflexivity].
  all: split; [reflexivity|].
  all: split; [|right; right; right; repeat split; reflexivity].
  - eexists; split; [reflexivity|].
    cbn [map snd created_files deletions_scheduled].
    split; [reflexivity | repeat constructor].
  - exists []; rewrite app_nil_r; repeat split; constructor.
Qed.

Lemma insert_newline_handler_effect (w : World) :
  handler_effect w (fst (insert_newline w)).
Proof.
  destruct w as [te sc [bd ba bs bo] sl n0 tm c0 lg].
  unfold handler_effect, insert_newline.
  unfold_handlers.
  cbn [fst slow_checkbox button status_label log].
  split; [reflexivity|].
  split; [|left; split; reflexivity].
  eexists; split; [reflexivity|].
  cbn [map snd created_files deletions_scheduled].
  split; [reflexivity | repeat constructor].
Qed.

(** Every event the loop delivers is handled within [handler_effect],
    whether its handler returns or raises. *)
Lemma dispatch_effect
    (E : Env) (super : QKeyEvent -> M unit) (i : Input) (w : World) :
  edits_text_only super ->
  handler_effect w (fst (dispatch E super i w)).
Proof.
  intros Hsuper.
  destruct i as [dt | k | | event | value]; cbn [dispatch].
  - apply handler_effect_same; reflexivity.
  - apply fire_handler_effect.
  - unfold click.
    destruct (disabled (button w)); [apply handler_effect_refl|].
    destruct (text_to_speech E w) as [w' r] eqn:Hrun.
    apply (text_to_speech_effect E w w' r Hrun).
  - unfold key_press, keyPressEvent.
    destruct ((key event =? Key_Return) || (key event =? Key_Enter)).
    + destruct (negb (Z.land (modifiers event) ShiftModifier =? 0)).
      * apply insert_newline_handler_effect.
      * destruct (text_to_speech E w) as [w' r] eqn:Hrun.
        apply (text_to_speech_effect E w w' r Hrun).
    + destruct (Hsuper event w) as (t & r & ->).
      apply handler_effect_same; reflexivity.
  - unfold animate.
    destruct (animation_running (button w)) eqn:Hrun.
    + apply set_opacity_handler_effect; exact Hrun.
    + apply handler_effect_refl.
Qed.

(** A property every handler keeps is kept by every run, up to and
    including the world an exception leaves behind. *)
Lemma exec_preserves
    (E : Env) (super : QKeyEvent -> M unit) (P : World -> Prop) :
  (forall i w, P w -> P (fst (dispatch E super i w))) ->
  forall l w, P w -> P (fst (exec E super l w)).
Proof.
  intros Hstep l; induction l as [|i l IH]; intros w Hw; [exact Hw|].
  cbn [exec]; unfold bind.
  specialize (Hstep i w Hw).
  destruct (dispatch E super i w) as [w1 [u|e]]; cbn [fst] in *.
  - apply IH; exact Hstep.
  - exact Hstep.
Qed.

Lemma base_keyPressEvent_edits_text_only :
  edits_text_only Fixture.base_keyPressEvent.
Proof.
  intros event w; unfold Fixture.base_keyPressEvent.
  eexists; eexists; reflexivity.
Qed.

(** ** Invariants of the window *)

Lemma indicators_agree_step (w w' : World) :
  indicators_agree w -> handler_effect w w' -> indicators_agree w'.
Proof.
  unfold indicators_agree.
  intros [Hrun Hstatus] (_ & _ & Hcases).
  destruct Hcases as [[Hb Hs] | [[Hb Hs] | [[Hb Hs] | (Hr & Hd & Hr' & Hs)]]].
  - rewrite Hb, Hs; split; assumption.
  - rewrite Hb, Hs; split; reflexivity.
  - rewrite Hb, Hs; split; reflexivity.
  - rewrite Hr', Hd, Hs; split; [|exact Hstatus].
    rewrite <- Hrun; symmetry; exact Hr.
Qed.

(** X1. The three signs of a request in progress never disagree. From a
    window where the animation runs exactly when the button is disabled and
    the status label shows the speaking text exactly then (and is empty
    otherwise), as it is after start-up, every run of the event loop, under
    every behaviour of the collaborators, ends in such a window again, also
    when the run is ended by an exception. *)
Theorem indicators_always_agree
    (E : Env) (super : QKeyEvent -> M unit) (l : list Input) (w : World) :
  edits_text_only super ->
  indicators_agree w ->
  indicators_agree (fst (exec E super l w)).
Proof.
  intros Hsuper.
  apply exec_preserves.
  intros i w0 Hw0.
  apply (indicators_agree_step w0); [exact Hw0|].
  apply dispatch_effect; exact Hsuper.
Qed.

Lemma indicators_always_agree_witness :
  indicators_agree TextToSpeechApp_init /\
  indicators_agree
    (fst (exec (Fixture.failing_at 9 pygame_error)
            Fixture.base_keyPressEvent
            [KeyPress Fixture.letter_a; Click; Tick 300;
             KeyPress Fixture.plain_enter; Tick 5000; Timeout 0]
            TextToSpeechApp_init)).
Proof.
  split; [split; reflexivity|].
  apply (indicators_always_agree (Fixture.failing_at 9 pygame_error)
           Fixture.base_keyPressEvent).
  - exact base_keyPressEvent_edits_text_only.
  - split; reflexivity.
Defined.

Lemma no_pulse_residue_step (w w' : World) :
  no_pulse_residue w -> handler_effect w w' -> no_pulse_residue w'.
Proof.
  unfold no_pulse_residue.
  intros Hw (_ & _ & Hcases) Hstill.
  destruct Hcases as [[Hb _] | [[Hb _] | [[Hb _] | (_ & _ & Hr' & _)]]].
  - rewrite Hb in *; apply Hw; exact Hstill.
  - rewrite Hb in Hstill; discriminate Hstill.
  - rewrite Hb; reflexivity.
  - rewrite Hr' in Hstill; discriminate Hstill.
Qed.

(** X2. The pulse leaves no trace on a button at rest: from a window whose
    button, when it is not animated, wears the default style sheet, as after
    start-up, every run ends in such a window, however the opacity frames,
    submits, completion callbacks and failures interleave. *)
Theorem resting_button_has_default_style
    (E : Env) (super : QKeyEvent -> M unit) (l : list Input) (w : World) :
  edits_text_only super ->
  no_pulse_residue w ->
  no_pulse_residue (fst (exec E super l w)).
Proof.
  intros Hsuper.
  apply exec_preserves.
  intros i w0 Hw0.
  apply (no_pulse_residue_step w0); [exact Hw0|].
  apply dispatch_effect; exact Hsuper.
Qed.

Lemma resting_button_has_default_style_witness :
  styleSheet
    (button
       (fst (exec Fixture.healthy Fixture.base_keyPressEvent
               [KeyPress Fixture.letter_a; Click;
                Frame (S754_finite false 5404319552844595 (-54));
                Tick 3000; Timeout 0]
               TextToSpeechApp_init))) = DefaultStyle.
Proof.
  apply (resting_button_has_default_style Fixture.healthy
           Fixture.base_keyPressEvent
           [KeyPress Fixture.letter_a; Click;
            Frame (S754_finite false 5404319552844595 (-54));
            Tick 3000; Timeout 0]
           TextToSpeechApp_init).
  - exact base_keyPressEvent_edits_text_only.
  - intros _; reflexivity.
  - reflexivity.
Defined.

(** ** Invariants of the trace *)

(** X3. No scratch file is created without its deletion being scheduled:
    in every run, whatever the collaborators do and wherever an exception
    ends it, the scratch files created so far are, in the same order, the
    files whose deletion has been scheduled. *)
Theorem every_scratch_file_gets_a_deletion_timer
    (E : Env) (super : QKeyEvent -> M unit) (l : list Input) (w : World) :
  edits_text_only super ->
  created_files (map snd (log w)) = deletions_scheduled (map snd (log w)) ->
  created_files (map snd (log (fst (exec E super l w)))) =
  deletions_scheduled (map snd (log (fst (exec E super l w)))).
Proof.
  intros Hsuper.
  apply (exec_preserves E super
           (fun w0 => created_files (map snd (log w0)) =
                      deletions_scheduled (map snd (log w0)))).
  intros i w0 Hw0.
  destruct (dispatch_effect E super i w0 Hsuper)
    as (_ & (new & Hlog & Hnew & _) & _).
  rewrite Hlog, map_app, created_files_app, deletions_scheduled_app.
  rewrite Hw0, Hnew; reflexivity.
Qed.

Lemma every_scratch_file_gets_a_deletion_timer_witness :
  deletions_scheduled
    (map snd
       (log (fst (exec (Fixture.failing_at 8 gTTSError)
                    Fixture.base_keyPressEvent
                    [KeyPress Fixture.letter_a; Click; Tick 300;
                     KeyPress Fixture.plain_enter]
                    TextToSpeechApp_init)))) =
    ["/tmp/tmpq3x1.mp3"%string; "/tmp/tmpz8k2.mp3"%string].
Proof.
  rewrite <- (every_scratch_file_gets_a_deletion_timer
                (Fixture.failing_at 8 gTTSError) Fixture.base_keyPressEvent
                [KeyPress Fixture.letter_a; Click; Tick 300;
                 KeyPress Fixture.plain_enter]
                TextToSpeechApp_init).
  - reflexivity.
  - exact base_keyPressEvent_edits_text_only.
  - reflexivity.
Defined.

(** X4. The service is never asked to speak nothing: in every run, every
    synthesis request of the trace carries a text that is not empty and has
    no whitespace at either end, with the language ['de']. *)
Theorem requests_are_trimmed_and_german
    (E : Env) (super : QKeyEvent -> M unit) (l : list Input) (w : World) :
  edits_text_only super ->
  Forall well_formed_request (map snd (log w)) ->
  Forall well_formed_request (map snd (log (fst (exec E super l w)))).
Proof.
  intros Hsuper.
  apply (exec_preserves E super
           (fun w0 => Forall well_formed_request (map snd (log w0)))).
  intros i w0 Hw0.
  destruct (dispatch_effect E super i w0 Hsuper)
    as (_ & (new & Hlog & _ & Hnew) & _).
  rewrite Hlog, map_app.
  apply Forall_app; split; assumption.
Qed.

Lemma requests_are_trimmed_and_german_witness :
  Forall well_formed_request
    (map snd
       (log (fst (exec Fixture.healthy Fixture.base_keyPressEvent
                    [KeyPress (mkKeyEvent 0x20 0);
                     KeyPress Fixture.letter_a;
                     KeyPress (mkKeyEvent 0x20 0); Click]
                    TextToSpeechApp_init)))) /\
  In (EvgTTS [65%N] lang_de true (Ok tt))
     (map snd
        (log (fst (exec Fixture.healthy Fixture.base_keyPressEvent
                     [KeyPress (mkKeyEvent 0x20 0);
                      KeyPress Fixture.letter_a;
                      KeyPress (mkKeyEvent 0x20 0); Click]
                     TextToSpeechApp_init)))).
Proof.
  split.
  - apply (requests_are_trimmed_and_german Fixture.healthy
             Fixture.base_keyPressEvent).
    + exact base_keyPressEvent_edits_text_only.
    + constructor.
  - vm_compute; do 3 right; left; reflexivity.
Defined.

(** ** What submits and timers never touch *)

Lemma dispatch_keeps_text
    (E : Env) (super : QKeyEvent -> M unit) (i : Input) (w : World) :
  is_key_press i = false ->
  text_edit (fst (dispatch E super i w)) = text_edit w.
Proof.
  destruct i as [dt | k | | event | value]; cbn [dispatch is_key_press];
    intros Hi; try discriminate Hi.
  - reflexivity.
  - apply fire_handler_effect.
  - unfold click.
    destruct (disabled (button w)); [reflexivity|].
    destruct (text_to_speech E w) as [w' r] eqn:Hrun.
    apply (text_to_speech_effect E w w' r Hrun).
  - unfold animate.
    destruct (animation_running (button w)) eqn:Hrun; [|reflexivity].
    apply set_opacity_handler_effect; exact Hrun.
Qed.

(** X5. Speaking never eats the input. A run without key presses (clicks
    on the button, timers firing, animation frames, time passing) leaves the
    text of the field, its cursor and its selection exactly as they were,
    whatever the collaborators do; and no run at all changes the slow
    checkbox. *)
Theorem speaking_keeps_text_and_checkbox
    (E : Env) (super : QKeyEvent -> M unit) (l : list Input) (w : World) :
  (forallb (fun i => negb (is_key_press i)) l = true ->
   text_edit (fst (exec E super l w)) = text_edit w) /\
  (edits_text_only super ->
   slow_checkbox (fst (exec E super l w)) = slow_checkbox w).
Proof.
  split.
  - revert w; induction l as [|i l IH]; intros w Hl; [reflexivity|].
    cbn [forallb] in Hl; apply andb_true_iff in Hl as [Hi Hl].
    apply negb_true_iff in Hi.
    pose proof (dispatch_keeps_text E super i w Hi) as Hstep.
    cbn [exec]; unfold bind.
    destruct (dispatch E super i w) as [w1 [u|e]]; cbn [fst] in *.
    + rewrite (IH w1 Hl); exact Hstep.
    + exact Hstep.
  - intros Hsuper.
    apply (exec_preserves E super
             (fun w0 => slow_checkbox w0 = slow_checkbox w));
      [|reflexivity].
    intros i w0 Hw0.
    destruct (dispatch_effect E super i w0 Hsuper) as (Hc & _).
    rewrite Hc; exact Hw0.
Qed.

Lemma speaking_keeps_text_and_checkbox_witness :
  text_edit
    (fst (exec Fixture.healthy Fixture.base_keyPressEvent
            [Click; Tick 3000; Timeout 0; Timeout 0; Click]
            (Fixture.idle Fixture.hallo))) = Fixture.field Fixture.hallo /\
  slow_checkbox
    (fst (exec Fixture.healthy Fixture.base_keyPressEvent
            [KeyPress Fixture.letter_a; Click; KeyPress Fixture.shift_enter]
            TextToSpeechApp_init)) = true.
Proof.
  split.
  - apply (speaking_keeps_text_and_checkbox Fixture.healthy
             Fixture.base_keyPressEvent
             [Click; Tick 3000; Timeout 0; Timeout 0; Click]
             (Fixture.idle Fixture.hallo)).
    reflexivity.
  - apply (speaking_keeps_text_and_checkbox Fixture.healthy
             Fixture.base_keyPressEvent
             [KeyPress Fixture.letter_a; Click; KeyPress Fixture.shift_enter]
             TextToSpeechApp_init).
    exact base_keyPressEvent_edits_text_only.
Defined.

(** ** More on the Enter key *)

(** X6. For Return and Enter only the Shift bit counts: two key events
    whose keys are Return or Enter (not necessarily the same one) and whose
    modifiers agree on Shift are handled alike, whatever Control, Alt, Meta
    or the keypad flag say. So Ctrl+Enter and the keypad's Enter submit, and
    Ctrl+Shift+Enter inserts a newline. *)
Theorem enter_routing_sees_only_shift
    (super : QKeyEvent -> M unit) (on_enter : option (M unit))
    (k1 k2 m1 m2 : Z) (w : World) :
  k1 = Key_Return \/ k1 = Key_Enter ->
  k2 = Key_Return \/ k2 = Key_Enter ->
  Z.testbit m1 25 = Z.testbit m2 25 ->
  keyPressEvent super on_enter (mkKeyEvent k1 m1) w =
  keyPressEvent super on_enter (mkKeyEvent k2 m2) w.
Proof.
  intros H1 H2 Hs.
  unfold keyPressEvent; cbn [key modifiers].
  apply enter_test in H1; apply enter_test in H2.
  rewrite H1, H2, !shift_test, Hs.
  reflexivity.
Qed.

Lemma enter_routing_sees_only_shift_witness :
  keyPressEvent Fixture.base_keyPressEvent
    (Some (text_to_speech Fixture.healthy))
    (mkKeyEvent Key_Enter 0x24000000) (Fixture.idle Fixture.hallo) =
  keyPressEvent Fixture.base_keyPressEvent
    (Some (text_to_speech Fixture.healthy))
    (mkKeyEvent Key_Return 0) (Fixture.idle Fixture.hallo).
Proof.
  apply (enter_routing_sees_only_shift Fixture.base_keyPressEvent
           (Some (text_to_speech Fixture.healthy))
           Key_Enter Key_Return 0x24000000 0 (Fixture.idle Fixture.hallo)).
  - right; reflexivity.
  - left; reflexivity.
  - reflexivity.
Defined.

(** ** Submit and completion together *)



(** ** Which files are removed *)












(** ** The opacity property *)

Lemma int_raises (x : float) (e : Exn) :
  int x = Raise e -> e = ValueError \/ e = OverflowError.
Proof.
  destruct x; cbn [int]; intros H; try discriminate H;
    injection H as <-; [right | left]; reflexivity.
Qed.

Lemma bg_opacity_of_nan :
  int (float_add (float_of_int 85) (float_mul S754_nan (float_of_int 100)))
    = Raise ValueError.
Proof. vm_compute; reflexivity. Qed.

Lemma bg_opacity_of_infinity (s : bool) :
  int (float_add (float_of_int 85)
         (float_mul (S754_infinity s) (float_of_int 100)))
    = Raise OverflowError.
Proof. destruct s; vm_compute; reflexivity. Qed.

(** X9. [set_opacity(value)] stores the value before anything can fail:
    afterwards [get_opacity()] is [value] in every case, and the enabled
    state and the animation are untouched. When the setter returns, the
    style sheet is the one formatted from [value]. When it raises, which it
    does with ValueError for NaN and with OverflowError for an infinity
    (from the unused [int(85 + value * 100)]) and with no other exception
    ever, the style sheet is still the old one: attribute and look are then
    out of step. *)
Theorem set_opacity_effect (value : float) (w : World) :
  get_opacity (fst (set_opacity value w)) = value /\
  disabled (button (fst (set_opacity value w))) = disabled (button w) /\
  animation_running (button (fst (set_opacity value w)))
    = animation_running (button w) /\
  (snd (set_opacity value w) = Ok tt ->
   styleSheet (button (fst (set_opacity value w))) = OpacityStyle value) /\
  (forall e,
     snd (set_opacity value w) = Raise e ->
     (e = ValueError \/ e = OverflowError) /\
     styleSheet (button (fst (set_opacity value w)))
       = styleSheet (button w)) /\
  (value = S754_nan -> snd (set_opacity value w) = Raise ValueError) /\
  (forall s, value = S754_infinity s ->
             snd (set_opacity value w) = Raise OverflowError).
Proof.
  destruct w as [te sc [bd ba bs bo] sl n0 tm c0 lg].
  unfold set_opacity, get_opacity.
  unfold_handlers.
  destruct (int (float_add (float_of_int 85)
                   (float_mul value (float_of_int 100)))) as [n|e] eqn:Hbg.
  all: cbn [fst snd button _opacity disabled animation_running styleSheet].
  all: repeat split; try reflexivity; try discriminate.
  - intros ->; rewrite bg_opacity_of_nan in Hbg; discriminate Hbg.
  - intros s ->; rewrite bg_opacity_of_infinity in Hbg; discriminate Hbg.
  - injection H as <-; apply (int_raises _ _ Hbg).
  - intros ->; rewrite bg_opacity_of_nan in Hbg.
    injection Hbg as <-; reflexivity.
  - intros s ->; rewrite bg_opacity_of_infinity in Hbg.
    injection Hbg as <-; reflexivity.
Qed.

Lemma set_opacity_effect_witness :
  snd (set_opacity S754_nan (Fixture.idle Fixture.hallo)) = Raise ValueError /\
  styleSheet (button (fst (set_opacity Fixture.one
                             (Fixture.idle Fixture.hallo))))
    = OpacityStyle Fixture.one.
Proof.
  split.
  - apply (set_opacity_effect S754_nan (Fixture.idle Fixture.hallo)).
    reflexivity.
  - apply (set_opacity_effect Fixture.one (Fixture.idle Fixture.hallo)).
    reflexivity.
Defined.

(** ** A completion callback among several requests *)

Lemma filter_remove_nth_done
    (i : nat) (l : list (Z * Callback)) (due : Z) :
  nth_error l i = Some (due, CbDoneSpeaking) ->
  S (List.length (filter is_done (remove_nth i l)))
    = List.length (filter is_done l).
Proof.
  revert i; induction l as [|[d cb] l IH]; intros i Hi.
  - destruct i; discriminate Hi.
  - destruct i as [|i]; cbn [nth_error remove_nth] in *.
    + injection Hi as -> ->; reflexivity.
    + specialize (IH i Hi).
      cbn [filter].
      destruct (is_done (d, cb)); cbn [List.length]; rewrite IH; reflexivity.
Qed.

(** X10. The completion callback does not know which request it ends. When
    a completion timer that is due fires, the UI is Idle afterwards and the
    number of requests in flight has gone down by exactly one, whatever it
    was: with two or more requests in flight the button is enabled while
    requests remain in flight. The callback returns normally and calls no
    collaborator. *)
Theorem completion_ends_one_request
    (E : Env) (w : World) (i : nat) (due : Z) :
  nth_error (timers w) i = Some (due, CbDoneSpeaking) ->
  due <= now w ->
  snd (fire E i w) = Ok tt /\
  ui_state (fst (fire E i w)) = Idle /\
  S (in_flight (fst (fire E i w))) = in_flight w /\
  calls (fst (fire E i w)) = calls w.
Proof.
  intros Hi Hdue.
  rewrite (fire_due E w i due CbDoneSpeaking Hi Hdue).
  pose proof (filter_remove_nth_done i (timers w) due Hi) as Hcount.
  destruct w as [te sc [bd ba bs bo] sl n0 tm c0 lg].
  cbn [timers] in Hcount.
  unfold ui_state, in_flight.
  unfold_handlers.
  cbn [fst snd button disabled timers calls].
  repeat split; try reflexivity.
  exact Hcount.
Qed.

Lemma completion_ends_one_request_witness :
  let w := fst (exec Fixture.healthy Fixture.base_keyPressEvent
                  [Click; Tick 100; KeyPress Fixture.plain_enter; Tick 2200]
                  (Fixture.idle Fixture.hallo)) in
  in_flight w = 2%nat /\
  ui_state (fst (fire Fixture.healthy 0 w)) = Idle /\
  in_flight (fst (fire Fixture.healthy 0 w)) = 1%nat.
Proof.
  intros w.
  destruct (completion_ends_one_request Fixture.healthy w 0 2740)
    as (_ & Hui & Hcount & _).
  - reflexivity.
  - vm_compute; discriminate.
  - split; [reflexivity|].
    split; [exact Hui|].
    apply eq_add_S; rewrite Hcount; reflexivity.
Defined.
